(** * Employee directory view (src/comp.jsx): filter, sort and paginate.

    The component [App] keeps seven pieces of state (users, query,
    cityFilter, sortBy, page, loading, error) and derives from them the
    city options, the filtered and sorted list, the page count and the
    visible rows.  The development below embeds that derivation and the
    event handlers as functions on an explicit state record.

    Strings are Rocq [string]s: sequences of 8-bit code units, read as the
    code points U+0000..U+00FF.  Numbers that the component only uses as
    integers (the page, indices, lengths) are in [Z]. *)

From Stdlib Require Import List String Ascii Bool ZArith NArith QArith Qround Lia.
From Stdlib Require Import Sorted Permutation.
Import ListNotations.

Local Open Scope string_scope.
Local Open Scope list_scope.
Local Open Scope Z_scope.

(** ** The JavaScript built-ins the component calls *)

Module JS.

(** [if (s)] on a string: every string but the empty one is truthy. *)
Definition truthy (s : string) : bool :=
  match s with
  | EmptyString => false
  | String _ _ => true
  end.

(** [o || ""] where [o] is a string or [undefined] ([None]). *)
Definition orEmpty (o : option string) : string :=
  match o with
  | Some s => if truthy s then s else ""
  | None => ""
  end.

(** Upper-case letters of the code points below U+0100: A..Z, and
    U+00C0..U+00DE but for the multiplication sign U+00D7. *)
Definition isUpper (c : ascii) : bool :=
  let n := N_of_ascii c in
  ((65 <=? n) && (n <=? 90) ||
   (192 <=? n) && (n <=? 222) && negb (n =? 215))%N.

Definition lowerChar (c : ascii) : ascii :=
  if isUpper c then ascii_of_N (N_of_ascii c + 32) else c.

(** [String.prototype.toLowerCase]. *)
Fixpoint toLowerCase (s : string) : string :=
  match s with
  | EmptyString => EmptyString
  | String c s' => String (lowerChar c) (toLowerCase s')
  end.

(** [s.includes(t)]: [t] occurs in [s] at some position. *)
Fixpoint includes (s t : string) : bool :=
  if prefix t s then true
  else match s with
       | EmptyString => false
       | String _ s' => includes s' t
       end.

(** [Math.ceil] on a quotient of integers. *)
Definition Math_ceil (x : Q) : Z := Qceiling x.

Definition Math_max (a b : Z) : Z := Z.max a b.
Definition Math_min (a b : Z) : Z := Z.min a b.

(** [Array.prototype.slice(start, end)]: a negative bound counts from
    the end, and both bounds are clamped into [0, length]. *)
Definition relativeIndex (len i : Z) : Z :=
  if i <? 0 then Z.max (len + i) 0 else Z.min i len.

Definition slice {A : Type} (l : list A) (start final : Z) : list A :=
  let len := Z.of_nat (List.length l) in
  let k := relativeIndex len start in
  let e := relativeIndex len final in
  firstn (Z.to_nat (e - k)) (skipn (Z.to_nat k) l).

(** [Array.prototype.sort(comparefn)].  The order of the result is fixed
    by the language for a consistent comparator: the sort is stable.
    The model inserts every element, from the last to the first, before
    the first element of the sorted rest that it does not follow. *)
Section Sort.
Context {A : Type} (comparefn : A -> A -> Z).

Fixpoint insert (x : A) (l : list A) : list A :=
  match l with
  | [] => [x]
  | y :: l' => if comparefn x y <=? 0 then x :: l else y :: insert x l'
  end.

Definition sort (l : list A) : list A := fold_right insert [] l.
End Sort.

(** Values of [u.address?.city]: a string, or [undefined] ([None]). *)
Definition value := option string.

(** SameValueZero on such values. *)
Definition sameValueZero (a b : value) : bool :=
  match a, b with
  | Some s, Some t => String.eqb s t
  | None, None => true
  | _, _ => false
  end.

(** [new Set(iterable)] followed by [Array.from]: the elements in the
    order of their first insertion. *)
Definition setAdd (s : list value) (x : value) : list value :=
  if existsb (sameValueZero x) s then s else s ++ [x].

Definition newSet (l : list value) : list value := fold_left setAdd l [].

(** [Array.prototype.sort()] without a comparator: [undefined] goes
    last, the rest is ordered by code units. *)
Definition codeUnitCompare (s t : string) : Z :=
  match String.compare s t with
  | Lt => -1
  | Eq => 0
  | Gt => 1
  end.

Definition defaultCompare (a b : value) : Z :=
  match a, b with
  | None, None => 0
  | None, Some _ => 1
  | Some _, None => -1
  | Some s, Some t => codeUnitCompare s t
  end.

Definition sortDefault (l : list value) : list value := sort defaultCompare l.

End JS.

(** ** Data model: the records served by the users endpoint *)

Module Company.
Record t := mk { name : option string; catchPhrase : option string }.
End Company.

Module Address.
Record t := mk {
  street : option string;
  suite : option string;
  city : option string;
  zipcode : option string
}.
End Address.

Module User.
Record t := mk {
  id : Z;
  name : string;
  username : string;
  email : string;
  phone : string;
  website : string;
  company : option Company.t;
  address : option Address.t
}.

(** [u.company?.name] *)
Definition companyName (u : t) : option string :=
  match company u with
  | Some c => Company.name c
  | None => None
  end.

(** [u.address?.city] *)
Definition addressCity (u : t) : JS.value :=
  match address u with
  | Some a => Address.city a
  | None => None
  end.
End User.

(** ** The state of [App] *)

Record State := mkState {
  users : list User.t;
  query : string;
  cityFilter : string;
  sortBy : string;
  page : Z;
  loading : bool;
  error : option string
}.

Definition initialState : State :=
  {| users := []; query := ""; cityFilter := "All"; sortBy := "name";
     page := 1; loading := true; error := None |}.

Definition setUsers (v : list User.t) (st : State) : State :=
  mkState v (query st) (cityFilter st) (sortBy st) (page st) (loading st) (error st).
Definition setQuery (v : string) (st : State) : State :=
  mkState (users st) v (cityFilter st) (sortBy st) (page st) (loading st) (error st).
Definition setCityFilter (v : string) (st : State) : State :=
  mkState (users st) (query st) v (sortBy st) (page st) (loading st) (error st).
Definition setSortBy (v : string) (st : State) : State :=
  mkState (users st) (query st) (cityFilter st) v (page st) (loading st) (error st).
Definition setPage (v : Z) (st : State) : State :=
  mkState (users st) (query st) (cityFilter st) (sortBy st) v (loading st) (error st).
Definition setLoading (v : bool) (st : State) : State :=
  mkState (users st) (query st) (cityFilter st) (sortBy st) (page st) v (error st).
Definition setError (v : option string) (st : State) : State :=
  mkState (users st) (query st) (cityFilter st) (sortBy st) (page st) (loading st) v.

(** [setPage((p) => f(p))] *)
Definition updatePage (f : Z -> Z) (st : State) : State := setPage (f (page st)) st.

Definition PAGE_SIZE : Z := 4.

(** ** The fetch effect: state and exceptions *)

Inductive Exn :=
| Error (message : string)   (* [throw new Error(message)] *)
| Rejection.                 (* a promise of the platform rejected *)

Definition M (A : Type) : Type := State -> (Exn + A) * State.

Definition ret {A} (a : A) : M A := fun st => (inr a, st).
Definition throw {A} (e : Exn) : M A := fun st => (inl e, st).
Definition bind {A B} (m : M A) (k : A -> M B) : M B :=
  fun st =>
    match m st with
    | (inl e, st') => (inl e, st')
    | (inr a, st') => k a st'
    end.
Definition modify (f : State -> State) : M unit := fun st => (inr tt, f st).

Notation "x <- m ;; k" := (bind m (fun x => k))
  (at level 61, m at next level, right associativity).
Notation "m ;;; k" := (bind m (fun _ => k))
  (at level 61, right associativity).

(** [try { body } catch (err) { handler } finally { final }] *)
Definition tryCatchFinally {A} (body : M A) (handler : Exn -> M A) (final : M unit) : M A :=
  fun st =>
    let (r, st1) := body st in
    let (r', st2) := match r with
                     | inl e => handler e st1
                     | inr a => (inr a, st1)
                     end in
    match final st2 with
    | (inl e, st3) => (inl e, st3)
    | (inr _, st3) => (r', st3)
    end.

(** What the network does with the one request: it fails, or it answers
    with a status and a body that parses as JSON or does not. *)
Record Response := mkResponse { ok : bool; parsed : option (list User.t) }.

Inductive Network :=
| Unreachable
| Answers (response : Response).

Definition fetch (net : Network) : M Response :=
  match net with
  | Unreachable => throw Rejection
  | Answers r => ret r
  end.

Definition json (response : Response) : M (list User.t) :=
  match parsed response with
  | Some data => ret data
  | None => throw Rejection
  end.

Definition fetchUsers (net : Network) : M unit :=
  tryCatchFinally
    (response <- fetch net ;;
     (if negb (ok response)
      then throw (Error "Network response was not ok")
      else ret tt) ;;;
     data <- json response ;;
     modify (setUsers data))
    (fun err => modify (setError (Some "Failed to fetch users. Please try again.")))
    (modify (setLoading false)).

(** The state once the effect of the mount has run. *)
Definition mounted (net : Network) : State := snd (fetchUsers net initialState).

(** The fetch fails: network error or non-success status. *)
Definition fetchFails (net : Network) : bool :=
  match net with
  | Unreachable => true
  | Answers r => negb (ok r)
  end.

(** ** Derived values *)

Definition cities (st : State) : list JS.value :=
  Some "All" :: JS.sortDefault (JS.newSet (map User.addressCity (users st))).

Section Derived.

(** [String.prototype.localeCompare]: its sign is all the component
    uses, and the collation behind it is the platform's. *)
Variable localeCompare : string -> string -> Z.

(** The text a query is matched against. *)
Definition searchText (u : User.t) : string :=
  ((User.name u ++ User.username u) ++ User.email u) ++ JS.orEmpty (User.companyName u).

Definition queryStep (st : State) (rows : list User.t) : list User.t :=
  if JS.truthy (query st) then
    let lowerQuery := JS.toLowerCase (query st) in
    filter (fun u => JS.includes (JS.toLowerCase (searchText u)) lowerQuery) rows
  else rows.

(** [u.address?.city === cityFilter] *)
Definition cityIs (cityFilter : string) (u : User.t) : bool :=
  JS.sameValueZero (User.addressCity u) (Some cityFilter).

Definition cityStep (st : State) (rows : list User.t) : list User.t :=
  if negb (String.eqb (cityFilter st) "All") then
    filter (cityIs (cityFilter st)) rows
  else rows.

Definition comparator (sortBy : string) (a b : User.t) : Z :=
  if String.eqb sortBy "name" then localeCompare (User.name a) (User.name b)
  else if String.eqb sortBy "company" then
    localeCompare (JS.orEmpty (User.companyName a)) (JS.orEmpty (User.companyName b))
  else 0.

Definition sortStep (st : State) (rows : list User.t) : list User.t :=
  JS.sort (comparator (sortBy st)) rows.

Definition filtered (st : State) : list User.t :=
  sortStep st (cityStep st (queryStep st (users st))).

Definition pageCount (rows : list User.t) : Z :=
  JS.Math_ceil (inject_Z (Z.of_nat (List.length rows)) / inject_Z PAGE_SIZE).

Definition pageRows (rows : list User.t) (page : Z) : list User.t :=
  JS.slice rows ((page - 1) * PAGE_SIZE) (page * PAGE_SIZE).

Definition totalPages (st : State) : Z := pageCount (filtered st).
Definition paginated (st : State) : list User.t := pageRows (filtered st) (page st).

(** ** Event handlers *)

Definition handleQueryChange (value : string) (st : State) : State :=
  setPage 1 (setQuery value st).

Definition handleCityChange (value : string) (st : State) : State :=
  setPage 1 (setCityFilter value st).

Definition handleSortChange (value : string) (st : State) : State :=
  setSortBy value st.

(** The footer is rendered under [!loading && !error]. *)
Definition footerShown (st : State) : bool :=
  negb (loading st) &&
  negb (match error st with Some e => JS.truthy e | None => false end).

Definition previousDisabled (st : State) : bool := page st =? 1.
Definition nextDisabled (st : State) : bool := page st =? totalPages st.

Definition onPrevious (st : State) : State :=
  updatePage (fun p => JS.Math_max (p - 1) 1) st.
Definition onNext (st : State) : State :=
  updatePage (fun p => JS.Math_min (p + 1) (totalPages st)) st.

(** A click reaches the handler of a button that is rendered and not
    disabled, and nothing otherwise. *)
Definition clickPrevious (st : State) : State :=
  if footerShown st && negb (previousDisabled st) then onPrevious st else st.
Definition clickNext (st : State) : State :=
  if footerShown st && negb (nextDisabled st) then onNext st else st.

End Derived.

(** ** Notions the properties are stated with *)

(** [t] occurs in [s]. *)
Definition Substring (t s : string) : Prop :=
  exists before after, s = (before ++ t ++ after)%string.




(** A comparator that orders its arguments: any two are comparable, and
    "does not follow" is transitive. *)
Record Consistent {A : Type} (cmp : A -> A -> Z) : Prop := {
  consistent_total : forall a b, cmp a b <= 0 \/ cmp b a <= 0;
  consistent_trans : forall a b c, cmp a b <= 0 -> cmp b c <= 0 -> cmp a c <= 0
}.

(** The city options as the specification words them: "All", then the
    distinct non-empty cities of the records, in order. *)
Definition nonEmptyCity (c : JS.value) : bool :=
  match c with
  | Some s => JS.truthy s
  | None => false
  end.

Definition citiesSpec (st : State) : list JS.value :=
  Some "All" ::
  JS.sortDefault (JS.newSet (filter nonEmptyCity (map User.addressCity (users st)))).

(** The window of indices of page [p] meets no index of [rows]. *)
Definition windowOutside (rows : list User.t) (p : Z) : Prop :=
  forall i, (p - 1) * PAGE_SIZE <= i < p * PAGE_SIZE ->
            ~ (0 <= i < Z.of_nat (List.length rows)).

(** The pages 1 .. n of [rows], one after the other. *)
Definition pagesUpTo (rows : list User.t) (n : nat) : list User.t :=
  List.concat (map (fun k => pageRows rows (Z.of_nat k)) (seq 1 n)).

(** ** Sample data *)

Definition leanne : User.t :=
  User.mk 1 "Leanne Graham" "Bret" "Sincere@april.biz" "1-770-736-8031" "hildegard.org"
    (Some (Company.mk (Some "Romaguera-Crona") (Some "Multi-layered client-server neural-net")))
    (Some (Address.mk (Some "Kulas Light") (Some "Apt. 556")
             (Some "Gwenborough") (Some "92998-3874"))).

Definition ervin : User.t :=
  User.mk 2 "Ervin Howell" "Antonette" "Shanna@melissa.tv" "010-692-6593" "anastasia.net"
    (Some (Company.mk (Some "Deckow-Crist") (Some "Proactive didactic contingency")))
    (Some (Address.mk (Some "Victor Plains") (Some "Suite 879")
             (Some "Wisokyburgh") (Some "90566-7771"))).

Definition jo : User.t :=
  User.mk 3 "Jo Doe" "jd" "jo@mail.io" "555-0100" "jo.io"
    (Some (Company.mk (Some "ACME Corp") None))
    (Some (Address.mk None None (Some "Springfield") None)).

(** A record without company and without address. *)
Definition nomad : User.t :=
  User.mk 4 "Nomad" "nomad" "nomad@mail.io" "555-0101" "nomad.io" None None.

Definition numbered (k : nat) : User.t :=
  User.mk (Z.of_nat k) "User" "user" "user@mail.io" "555-0102" "user.io" None None.

(** Ten records, with the identifiers 1 to 10. *)
Definition tenUsers : list User.t := map numbered (seq 1 10).

Definition loaded (data : list User.t) : State :=
  mounted (Answers (mkResponse true (Some data))).

(** A search that matches no record of a loaded dataset. *)
Definition noMatch : State := handleQueryChange "zzz" (loaded [leanne; ervin]).


(** The third page of ten loaded records. *)
Definition pageThree : State := setPage 3 (loaded tenUsers).

(** Three loaded records, not in the order of their names. *)
Definition threeLoaded : State := loaded [leanne; ervin; jo].

(** An answer with a non-success status, whatever its body. *)
Definition badStatus : Network := Answers (mkResponse false (Some [leanne])).

(** A dataset in which one record has no address. *)
Definition withNomad : State := loaded [leanne; nomad].

(** Four loaded records, sorted by company. *)
Definition byCompany : State :=
  handleSortChange "company" (loaded [leanne; ervin; jo; nomad]).


(** ** What is rendered, and the events of a session *)

(** [{loading && <p>Loading users...</p>}] *)
Definition loadingShown (st : State) : bool := loading st.

(** [{error && (<div className="error">...</div>)}] *)
Definition errorShown (st : State) : bool :=
  match error st with
  | Some e => JS.truthy e
  | None => false
  end.

(** The Retry button reloads the page: the component starts afresh. *)
Definition clickRetry (st : State) : State :=
  if errorShown st then initialState else st.

Section Session.
Variable localeCompare : string -> string -> Z.

(** [{!loading && !error && paginated.length === 0 && <p>No users found.</p>}] *)
Definition emptyShown (st : State) : bool :=
  negb (loading st) && negb (errorShown st) &&
  (List.length (paginated localeCompare st) =? 0)%nat.

(** What can happen to a mounted component.  The effect runs once per
    page load, so its fetch settles once: [loading] starts true and only
    the end of the fetch makes it false. *)
Inductive Event :=
| FetchSettles (net : Network)
| QueryInput (value : string)
| CitySelect (value : string)
| SortSelect (value : string)
| PreviousClick
| NextClick
| RetryClick.

Definition step (st : State) (e : Event) : State :=
  match e with
  | FetchSettles net => if loading st then snd (fetchUsers net st) else st
  | QueryInput value => handleQueryChange value st
  | CitySelect value => handleCityChange value st
  | SortSelect value => handleSortChange value st
  | PreviousClick => clickPrevious st
  | NextClick => clickNext localeCompare st
  | RetryClick => clickRetry st
  end.

Definition run (events : list Event) : State := fold_left step events initialState.

(** What holds of every state of a session. *)
Record Invariant (st : State) : Prop := {
  inv_page :
    1 <= page st <= Z.max 1 (totalPages localeCompare st) \/
    (page st = 0 /\ totalPages localeCompare st = 0);
  inv_loading :
    loading st = true -> page st = 1 /\ users st = [] /\ error st = None;
  inv_error :
    error st = None \/
    (error st = Some "Failed to fetch users. Please try again." /\ users st = [])
}.

End Session.

(** A session: the fetch succeeds, the user searches, sorts and pages. *)
Definition browsing : list Event :=
  [ QueryInput "u"; FetchSettles (Answers (mkResponse true (Some tenUsers)));
    NextClick; SortSelect "company"; NextClick ].

(** * Properties *)

(** ** Strings *)

Lemma prefix_append (t s : string) :
  prefix t s = true <-> exists after, s = (t ++ after)%string.
Proof.
  revert s; induction t as [|c t IH]; intros s; simpl.
  - split; [intros _; exists s; reflexivity | destruct s; reflexivity].
  - destruct s as [|d s]; simpl.
    + split; [discriminate | intros [after H]; discriminate].
    + destruct (ascii_dec c d) as [->|Hcd].
      * rewrite IH. split; intros [after H]; exists after; congruence.
      * split; [discriminate | intros [after H]; congruence].
Qed.

Lemma includes_Substring (s t : string) :
  JS.includes s t = true <-> Substring t s.
Proof.
  unfold Substring. induction s as [|c s IH]; cbn [JS.includes].
  - destruct (prefix t "") eqn:Hp.
    + split; [intros _ | reflexivity].
      apply prefix_append in Hp as [after Hp]. exists "", after. exact Hp.
    + split; [discriminate | intros [before [after H]]].
      destruct before; [|discriminate]. simpl in H.
      assert (prefix t "" = true) by (apply prefix_append; eauto). congruence.
  - destruct (prefix t (String c s)) eqn:Hp.
    + split; [intros _ | reflexivity].
      apply prefix_append in Hp as [after Hp]. exists "", after. exact Hp.
    + rewrite IH. split.
      * intros [before [after H]]. exists (String c before), after.
        simpl. now rewrite H.
      * intros [before [after H]]. destruct before as [|d before]; simpl in H.
        -- assert (prefix t (String c s) = true) by (apply prefix_append; eauto).
           congruence.
        -- exists before, after. congruence.
Qed.

Lemma append_assoc (a b c : string) : ((a ++ b) ++ c = a ++ (b ++ c))%string.
Proof. induction a; simpl; congruence. Qed.






(** ** Slices and pages *)

Lemma firstn_add {A : Type} (n m : nat) (l : list A) :
  firstn (n + m) l = firstn n l ++ firstn m (skipn n l).
Proof.
  revert l; induction n as [|n IH]; intros l; [reflexivity|].
  destruct l as [|x l]; simpl.
  - now rewrite firstn_nil.
  - now rewrite IH.
Qed.

Lemma firstn_min_length {A : Type} (n : nat) (l : list A) :
  firstn (Nat.min n (List.length l)) l = firstn n l.
Proof.
  destruct (Nat.le_gt_cases n (List.length l)) as [H|H].
  - now rewrite Nat.min_l.
  - rewrite Nat.min_r, firstn_all by lia. symmetry. apply firstn_all2. lia.
Qed.

(** From page 1 on, the slice is the four rows after the first
    [4 * (p - 1)], or as many as are left. *)
Lemma pageRows_firstn_skipn (rows : list User.t) (p : Z) :
  1 <= p ->
  pageRows rows p = firstn 4 (skipn (Z.to_nat ((p - 1) * PAGE_SIZE)) rows).
Proof.
  intros Hp. unfold pageRows, JS.slice, JS.relativeIndex, PAGE_SIZE.
  set (len := List.length rows).
  destruct (Z.ltb_spec ((p - 1) * 4) 0) as [H|_]; [lia|].
  destruct (Z.ltb_spec (p * 4) 0) as [H|_]; [lia|].
  destruct (Z_lt_le_dec ((p - 1) * 4) (Z.of_nat len)) as [Hin|Hout].
  - rewrite (Z.min_l ((p - 1) * 4)) by lia.
    rewrite <- (firstn_min_length 4), length_skipn. fold len. f_equal. lia.
  - rewrite !skipn_all2 by (fold len; lia). now rewrite !firstn_nil.
Qed.

Lemma pageRows_zero (rows : list User.t) : pageRows rows 0 = [].
Proof.
  unfold pageRows, JS.slice, JS.relativeIndex, PAGE_SIZE. simpl.
  replace (Z.to_nat _) with 0%nat by lia. reflexivity.
Qed.

Lemma pageRows_length (rows : list User.t) (p : Z) :
  (List.length (pageRows rows p) <= 4)%nat.
Proof.
  unfold pageRows, JS.slice, JS.relativeIndex, PAGE_SIZE.
  rewrite length_firstn.
  destruct (Z.ltb_spec ((p - 1) * 4) 0), (Z.ltb_spec (p * 4) 0); lia.
Qed.

(** [Math.ceil(n / 4)] in integer arithmetic. *)
Lemma pageCount_div (rows : list User.t) :
  pageCount rows = (Z.of_nat (List.length rows) + 3) / 4.
Proof.
  unfold pageCount, JS.Math_ceil, Qceiling, Qfloor, PAGE_SIZE.
  cbn [Qdiv Qmult Qinv Qopp inject_Z Qnum Qden Z.mul Pos.mul].
  set (n := Z.of_nat (List.length rows)).
  change (Z.pos (1 * 4)) with 4. rewrite Z.mul_1_r.
  Z.to_euclidean_division_equations. lia.
Qed.

Lemma pageCount_bounds (rows : list User.t) :
  let n := Z.of_nat (List.length rows) in
  PAGE_SIZE * (pageCount rows - 1) < n <= PAGE_SIZE * pageCount rows.
Proof.
  cbv zeta. rewrite pageCount_div. unfold PAGE_SIZE.
  Z.to_euclidean_division_equations. lia.
Qed.

Lemma pagesUpTo_firstn (rows : list User.t) (n : nat) :
  pagesUpTo rows n = firstn (4 * n) rows.
Proof.
  unfold pagesUpTo. induction n as [|n IH]; [reflexivity|].
  rewrite seq_S, map_app, concat_app, IH. cbn [map List.concat].
  rewrite app_nil_r, pageRows_firstn_skipn by lia.
  replace (4 * S n)%nat with (4 * n + 4)%nat by lia.
  rewrite firstn_add. do 3 f_equal. unfold PAGE_SIZE. lia.
Qed.

(** ** Sorting *)

Section SortFacts.
Context {A : Type} (cmp : A -> A -> Z).

Lemma insert_Permutation (x : A) (l : list A) :
  Permutation (JS.insert cmp x l) (x :: l).
Proof.
  induction l as [|y l IH]; simpl; [reflexivity|].
  destruct (cmp x y <=? 0); [reflexivity|].
  rewrite IH. apply perm_swap.
Qed.

Lemma sort_Permutation (l : list A) : Permutation (JS.sort cmp l) l.
Proof.
  induction l as [|x l IH]; simpl; [reflexivity|].
  rewrite insert_Permutation. now constructor.
Qed.

Lemma insert_StronglySorted (x : A) (l : list A) :
  Consistent cmp ->
  StronglySorted (fun a b => cmp a b <= 0) l ->
  StronglySorted (fun a b => cmp a b <= 0) (JS.insert cmp x l).
Proof.
  intros [Htotal Htrans]. induction 1 as [|y l Hl IH Hy]; simpl.
  - repeat constructor.
  - destruct (Z.leb_spec (cmp x y) 0) as [Hxy|Hxy].
    + constructor; [now constructor|]. constructor; [exact Hxy|].
      eapply Forall_impl; [|exact Hy]. intros z Hz. now apply (Htrans x y z).
    + constructor; [exact IH|].
      eapply Permutation_Forall; [symmetry; apply insert_Permutation|].
      constructor; [|exact Hy]. destruct (Htotal x y); [lia|assumption].
Qed.

Lemma sort_StronglySorted (l : list A) :
  Consistent cmp -> StronglySorted (fun a b => cmp a b <= 0) (JS.sort cmp l).
Proof.
  intros Hc. induction l as [|x l IH]; simpl; [constructor|].
  now apply insert_StronglySorted.
Qed.

(** A comparator that never tells two elements apart leaves the list as
    it is: the sort is stable. *)
Lemma sort_indifferent (l : list A) :
  (forall a b, cmp a b = 0) -> JS.sort cmp l = l.
Proof.
  intros H0. induction l as [|x l IH]; simpl; [reflexivity|].
  rewrite IH. destruct l as [|y l]; simpl; [reflexivity|].
  now rewrite H0.
Qed.

(** Stability in general: the elements that a consistent comparator
    ranks with [z] come out in the order they came in. *)
Lemma insert_stable (z x : A) (l : list A) :
  Consistent cmp ->
  filter (fun y => (cmp z y <=? 0) && (cmp y z <=? 0)) (JS.insert cmp x l)
  = filter (fun y => (cmp z y <=? 0) && (cmp y z <=? 0)) (x :: l).
Proof.
  intros [Htotal Htrans]. induction l as [|y l IH]; [reflexivity|].
  cbn [JS.insert]. destruct (Z.leb_spec (cmp x y) 0) as [Hxy|Hxy]; [reflexivity|].
  cbn [filter] in *. rewrite IH.
  destruct (Z.leb_spec (cmp z x) 0), (Z.leb_spec (cmp x z) 0),
           (Z.leb_spec (cmp z y) 0), (Z.leb_spec (cmp y z) 0);
    cbn [andb]; try reflexivity.
  assert (cmp x y <= 0) by eauto. lia.
Qed.

Lemma sort_stable (z : A) (l : list A) :
  Consistent cmp ->
  filter (fun y => (cmp z y <=? 0) && (cmp y z <=? 0)) (JS.sort cmp l)
  = filter (fun y => (cmp z y <=? 0) && (cmp y z <=? 0)) l.
Proof.
  intros Hc. induction l as [|x l IH]; [reflexivity|].
  cbn [JS.sort fold_right]. rewrite insert_stable by exact Hc.
  cbn [filter]. fold (JS.sort cmp l). now rewrite IH.
Qed.
End SortFacts.

Lemma Consistent_on_key {A K : Type} (cmp : K -> K -> Z) (key : A -> K) :
  Consistent cmp -> Consistent (fun a b => cmp (key a) (key b)).
Proof. intros [Htotal Htrans]. split; eauto. Qed.

Lemma compare_not_Gt_trans (a b c : string) :
  String.compare a b <> Gt -> String.compare b c <> Gt -> String.compare a c <> Gt.
Proof.
  revert b c; induction a as [|x a IH]; intros [|y b] [|z c]; simpl; try congruence.
  unfold Ascii.compare.
  destruct (N.compare_spec (N_of_ascii x) (N_of_ascii y)),
           (N.compare_spec (N_of_ascii y) (N_of_ascii z)),
           (N.compare_spec (N_of_ascii x) (N_of_ascii z));
    try congruence; try lia; eauto.
Qed.

Lemma codeUnitCompare_le (s t : string) :
  JS.codeUnitCompare s t <= 0 <-> String.compare s t <> Gt.
Proof.
  unfold JS.codeUnitCompare. destruct (String.compare s t); split; (lia || congruence).
Qed.

Lemma codeUnitCompare_Consistent : Consistent JS.codeUnitCompare.
Proof.
  split.
  - intros a b. rewrite !codeUnitCompare_le, (String.compare_antisym b a).
    destruct (String.compare a b); simpl; [left|left|right]; congruence.
  - intros a b c. rewrite !codeUnitCompare_le. apply compare_not_Gt_trans.
Qed.

Lemma defaultCompare_Consistent : Consistent JS.defaultCompare.
Proof.
  destruct codeUnitCompare_Consistent as [Htotal Htrans]. split.
  - intros [a|] [b|]; simpl; try lia. apply Htotal.
  - intros [a|] [b|] [c|]; simpl; try lia. apply Htrans.
Qed.

(** ** Sets *)

Lemma sameValueZero_eq (a b : JS.value) : JS.sameValueZero a b = true <-> a = b.
Proof.
  destruct a as [s|], b as [t|]; simpl; try (split; congruence).
  rewrite String.eqb_eq. split; congruence.
Qed.

Lemma existsb_sameValueZero (x : JS.value) (s : list JS.value) :
  existsb (JS.sameValueZero x) s = true <-> In x s.
Proof.
  rewrite existsb_exists. split.
  - intros [y [Hy Hxy]]. apply sameValueZero_eq in Hxy. now subst.
  - intros Hx. exists x. split; [exact Hx | now apply sameValueZero_eq].
Qed.

Lemma fold_setAdd_In (l acc : list JS.value) (x : JS.value) :
  In x (fold_left JS.setAdd l acc) <-> In x acc \/ In x l.
Proof.
  revert acc; induction l as [|y l IH]; intros acc; simpl; [tauto|].
  rewrite IH. unfold JS.setAdd.
  destruct (existsb (JS.sameValueZero y) acc) eqn:Hy.
  - apply existsb_sameValueZero in Hy. split; [tauto|].
    intros [H|[->|H]]; auto.
  - rewrite in_app_iff. simpl. tauto.
Qed.

Lemma fold_setAdd_NoDup (l acc : list JS.value) :
  NoDup acc -> NoDup (fold_left JS.setAdd l acc).
Proof.
  revert acc; induction l as [|y l IH]; intros acc Hacc; simpl; [exact Hacc|].
  apply IH. unfold JS.setAdd.
  destruct (existsb (JS.sameValueZero y) acc) eqn:Hy; [exact Hacc|].
  apply NoDup_app; [exact Hacc | repeat constructor; simpl; tauto |].
  intros z Hz [<-|[]].
  apply existsb_sameValueZero in Hz. congruence.
Qed.

Lemma newSet_In (l : list JS.value) (x : JS.value) : In x (JS.newSet l) <-> In x l.
Proof. unfold JS.newSet. rewrite fold_setAdd_In. simpl. tauto. Qed.

Lemma newSet_NoDup (l : list JS.value) : NoDup (JS.newSet l).
Proof. apply fold_setAdd_NoDup. constructor. Qed.


(** ** The component *)

Section Properties.
Variable localeCompare : string -> string -> Z.

(** *** Page changes *)

Lemma totalPages_setPage (v : Z) (st : State) :
  totalPages localeCompare (setPage v st) = totalPages localeCompare st.
Proof. reflexivity. Qed.

Lemma totalPages_nonneg (st : State) : 0 <= totalPages localeCompare st.
Proof.
  unfold totalPages. rewrite pageCount_div.
  apply Z.div_pos; lia.
Qed.

Lemma clickPrevious_lower (st : State) :
  1 <= page st -> 1 <= page (clickPrevious st).
Proof.
  intros Hp. unfold clickPrevious, onPrevious, updatePage, JS.Math_max.
  destruct (footerShown st && negb (previousDisabled st)); simpl; lia.
Qed.

Lemma clickNext_upper (st : State) :
  page st <= totalPages localeCompare st ->
  page (clickNext localeCompare st) <= totalPages localeCompare st.
Proof.
  intros Hp. unfold clickNext, onNext, updatePage, JS.Math_min.
  destruct (footerShown st && negb (nextDisabled localeCompare st)); simpl; lia.
Qed.

(** X15: from a page in [1, totalPages], a click on Previous and a click
    on Next both leave the page in [1, totalPages]. *)
Lemma clicks_keep_range (st : State) :
  1 <= page st <= totalPages localeCompare st ->
  1 <= page (clickPrevious st) <= totalPages localeCompare st /\
  1 <= page (clickNext localeCompare st) <= totalPages localeCompare st.
Proof.
  intros Hp.
  unfold clickPrevious, clickNext, onPrevious, onNext,
    updatePage, JS.Math_max, JS.Math_min.
  destruct (footerShown st && negb (previousDisabled st)),
           (footerShown st && negb (nextDisabled localeCompare st)); simpl; lia.
Qed.

Lemma nextDisabled_last (st : State) :
  nextDisabled localeCompare st = true <-> page st = totalPages localeCompare st.
Proof. unfold nextDisabled. apply Z.eqb_eq. Qed.

(** C1: the page is meant to stay in [1, totalPages], a page change
    doing nothing when there is no page.  On a search without a match the
    footer is shown with page 1 of 0, the Next button is enabled, and a
    click on it sets the page to 0. *)
Theorem next_on_empty_result_sets_page_zero :
  footerShown noMatch = true /\
  page noMatch = 1 /\
  totalPages localeCompare noMatch = 0 /\
  nextDisabled localeCompare noMatch = false /\
  page (clickNext localeCompare noMatch) = 0.
Proof. repeat split; reflexivity. Qed.

(** *** City options *)

Lemma cities_agree_on_named_cities (st : State) :
  Forall (fun u => nonEmptyCity (User.addressCity u) = true) (users st) ->
  cities st = citiesSpec st.
Proof.
  intros Hall. unfold cities, citiesSpec. do 3 f_equal.
  induction (users st) as [|u us IH]; [reflexivity|].
  inversion Hall as [|? ? Hu Hus]; subst. simpl. rewrite Hu. f_equal. now apply IH.
Qed.

(** C2 (amended): the options are "All" followed by the distinct values
    of [address?.city] over the records, the empty string and the missing
    city ([undefined]) among them when they occur, in the order of the
    default sort: by code units, [undefined] last. *)
Theorem cities_are_all_then_sorted_distinct_cities (st : State) :
  exists options,
    cities st = Some "All" :: options /\
    NoDup options /\
    (forall c, In c options <-> exists u, In u (users st) /\ User.addressCity u = c) /\
    StronglySorted (fun a b => JS.defaultCompare a b <= 0) options.
Proof.
  exists (JS.sortDefault (JS.newSet (map User.addressCity (users st)))).
  unfold JS.sortDefault.
  pose proof (sort_Permutation JS.defaultCompare
                (JS.newSet (map User.addressCity (users st)))) as Hperm.
  repeat split.
  - eapply Permutation_NoDup; [symmetry; exact Hperm | apply newSet_NoDup].
  - intros Hc. apply (Permutation_in _ Hperm), newSet_In, in_map_iff in Hc.
    destruct Hc as [u [Hu Hin]]. eauto.
  - intros [u [Hin Hu]]. apply (Permutation_in _ (Permutation_sym Hperm)).
    apply newSet_In, in_map_iff. eauto.
  - apply sort_StronglySorted, defaultCompare_Consistent.
Qed.

(** *** The query filter *)


(** *** Pages *)

(** C4: the page count is the ceiling of count / 4, and on a page p in
    [1, totalPages] the visible rows are the records of the filtered and
    sorted list at the indices (p-1)*4 .. p*4 - 1. *)
Theorem total_pages_and_visible_rows (st : State) :
  1 <= page st <= totalPages localeCompare st ->
  let count := Z.of_nat (List.length (filtered localeCompare st)) in
  PAGE_SIZE = 4 /\
  (PAGE_SIZE * (totalPages localeCompare st - 1) < count
     <= PAGE_SIZE * totalPages localeCompare st) /\
  forall i : nat,
    nth_error (paginated localeCompare st) i =
    if (i <? 4)%nat
    then nth_error (filtered localeCompare st) (Z.to_nat ((page st - 1) * PAGE_SIZE) + i)
    else None.
Proof.
  intros Hp. cbv zeta. split; [reflexivity|]. split.
  - apply pageCount_bounds.
  - intros i. unfold paginated.
    rewrite pageRows_firstn_skipn, nth_error_firstn, nth_error_skipn by lia.
    reflexivity.
Qed.

Lemma filtered_setPage (v : Z) (st : State) :
  filtered localeCompare (setPage v st) = filtered localeCompare st.
Proof. reflexivity. Qed.

(** C5: the visible rows of the pages 1 to totalPages, one after the
    other, are the filtered and sorted list. *)
Theorem pages_concatenate_to_filtered (st : State) :
  List.concat
    (map (fun k => paginated localeCompare (setPage (Z.of_nat k) st))
         (seq 1 (Z.to_nat (totalPages localeCompare st))))
  = filtered localeCompare st.
Proof.
  change (pagesUpTo (filtered localeCompare st)
            (Z.to_nat (totalPages localeCompare st)) = filtered localeCompare st).
  rewrite pagesUpTo_firstn. apply firstn_all2.
  pose proof (pageCount_bounds (filtered localeCompare st)) as Hb.
  cbv zeta in Hb. unfold totalPages, PAGE_SIZE in *. lia.
Qed.

(** *** Sorting *)

Lemma comparator_name (a b : User.t) :
  comparator localeCompare "name" a b = localeCompare (User.name a) (User.name b).
Proof. reflexivity. Qed.

Lemma comparator_company (a b : User.t) :
  comparator localeCompare "company" a b =
  localeCompare (JS.orEmpty (User.companyName a)) (JS.orEmpty (User.companyName b)).
Proof. reflexivity. Qed.

Lemma comparator_other (key : string) (a b : User.t) :
  key <> "name" -> key <> "company" -> comparator localeCompare key a b = 0.
Proof.
  intros Hn Hc. unfold comparator.
  apply String.eqb_neq in Hn, Hc. now rewrite Hn, Hc.
Qed.

Lemma StronglySorted_weaken {A : Type} (R R' : A -> A -> Prop) (l : list A) :
  (forall a b, R a b -> R' a b) -> StronglySorted R l -> StronglySorted R' l.
Proof.
  intros HR. induction 1 as [|x l Hl IH Hx]; constructor; [exact IH|].
  eapply Forall_impl; [|exact Hx]. intros y. apply HR.
Qed.

(** The key read by the comparator for "company", on the fields of the
    record. *)
Lemma company_key (u : User.t) :
  JS.orEmpty (User.companyName u) =
  match User.company u with
  | Some c => match Company.name c with
              | Some n => n
              | None => ""
              end
  | None => ""
  end.
Proof.
  unfold User.companyName. destruct (User.company u) as [[[[|c n]|] phrase]|];
    reflexivity.
Qed.

(** C6: the sorted list holds the records that passed the filters; under
    a consistent [localeCompare] it is non-decreasing on the names for
    the key "name" and on the company names (the name of the company of
    the record, the empty string when the record has no company or the
    company no name) for the key "company"; for any other key it is the
    filtered list as it was. *)
Theorem sort_orders_by_the_selected_key (st : State) :
  let rows := cityStep st (queryStep st (users st)) in
  Permutation (filtered localeCompare st) rows /\
  (Consistent localeCompare ->
     (sortBy st = "name" ->
        StronglySorted
          (fun a b => localeCompare (User.name a) (User.name b) <= 0)
          (filtered localeCompare st)) /\
     (sortBy st = "company" ->
        StronglySorted
          (fun a b =>
             localeCompare
               match User.company a with
               | Some c => match Company.name c with Some n => n | None => "" end
               | None => ""
               end
               match User.company b with
               | Some c => match Company.name c with Some n => n | None => "" end
               | None => ""
               end <= 0)
          (filtered localeCompare st))) /\
  (sortBy st <> "name" -> sortBy st <> "company" -> filtered localeCompare st = rows).
Proof.
  cbv zeta. unfold filtered, sortStep. split; [apply sort_Permutation|]. split.
  - intros Hc. split; intros ->.
    + apply (sort_StronglySorted (comparator localeCompare "name")).
      apply (Consistent_on_key localeCompare User.name Hc).
    + eapply StronglySorted_weaken;
        [|apply (sort_StronglySorted (comparator localeCompare "company"));
          apply (Consistent_on_key localeCompare
                   (fun u => JS.orEmpty (User.companyName u)) Hc)].
      intros a b. cbv beta. rewrite comparator_company, !company_key. exact (fun H => H).
  - intros Hn Hc. apply sort_indifferent. intros a b. now apply comparator_other.
Qed.

(** *** The fetch *)

Lemma fetch_success (r : Response) (data : list User.t) :
  ok r = true -> parsed r = Some data ->
  mounted (Answers r) = setLoading false (setUsers data initialState).
Proof.
  intros Hok Hdata. unfold mounted, fetchUsers, tryCatchFinally, bind, fetch, json.
  simpl. rewrite Hok, Hdata. reflexivity.
Qed.

Lemma fetch_malformed (r : Response) :
  parsed r = None ->
  mounted (Answers r) =
  setLoading false
    (setError (Some "Failed to fetch users. Please try again.") initialState).
Proof.
  intros Hdata. unfold mounted, fetchUsers, tryCatchFinally, bind, fetch, json.
  simpl. rewrite Hdata. destruct (ok r); reflexivity.
Qed.

(** C7: after a failed fetch (network error or non-success status) the
    error is the fixed message, loading is false, the dataset is still
    empty and the only city option is "All". *)
Theorem failed_fetch_leaves_error_and_empty_dataset (net : Network) :
  fetchFails net = true ->
  error (mounted net) = Some "Failed to fetch users. Please try again." /\
  loading (mounted net) = false /\
  users (mounted net) = [] /\
  cities (mounted net) = [Some "All"].
Proof.
  destruct net as [|[status data]]; simpl; intros Hfail.
  - repeat split.
  - destruct status; [discriminate|]. repeat split.
Qed.

(** *** Handlers *)

(** C8: a change of the query or of the city sets the page to 1, whatever
    the new value; a change of the sort key replaces the sort key and
    nothing else, the page included. *)
Theorem query_and_city_reset_page_sort_does_not (st : State) (value : string) :
  (query (handleQueryChange value st) = value /\
   page (handleQueryChange value st) = 1) /\
  (cityFilter (handleCityChange value st) = value /\
   page (handleCityChange value st) = 1) /\
  handleSortChange value st =
    mkState (users st) (query st) (cityFilter st) value (page st) (loading st) (error st).
Proof. repeat split. Qed.

(** *** Case of the query *)




(** *** The slice at any page *)

(** C10 (amended): at every integer page the slice has at most four
    rows, and from page 0 on it is empty whenever its window of indices
    lies outside the list. *)
Theorem visible_rows_at_any_page (rows : list User.t) (p : Z) :
  (List.length (pageRows rows p) <= 4)%nat /\
  (0 <= p -> windowOutside rows p -> pageRows rows p = []).
Proof.
  split; [apply pageRows_length|]. intros Hp Hout.
  destruct (Z.eq_dec p 0) as [->|Hp0]; [apply pageRows_zero|].
  rewrite pageRows_firstn_skipn by lia.
  rewrite skipn_all2; [reflexivity|].
  specialize (Hout ((p - 1) * PAGE_SIZE)). unfold PAGE_SIZE in *. lia.
Qed.

End Properties.

(** ** Worked inputs *)

Example ten_records_make_three_pages :
  totalPages JS.codeUnitCompare pageThree = 3 /\
  map User.id (paginated JS.codeUnitCompare (setPage 1 pageThree)) = [1; 2; 3; 4] /\
  map User.id (paginated JS.codeUnitCompare (setPage 2 pageThree)) = [5; 6; 7; 8] /\
  map User.id (paginated JS.codeUnitCompare pageThree) = [9; 10] /\
  clickNext JS.codeUnitCompare pageThree = pageThree.
Proof. repeat split; reflexivity. Qed.

Example sorted_by_name :
  map User.name (filtered JS.codeUnitCompare threeLoaded)
  = ["Ervin Howell"; "Jo Doe"; "Leanne Graham"].
Proof. reflexivity. Qed.

Example city_filter_is_exact :
  map User.id (filtered JS.codeUnitCompare (handleCityChange "Springfield" threeLoaded)) = [3] /\
  filtered JS.codeUnitCompare (handleCityChange "springfield" threeLoaded) = [].
Proof. split; reflexivity. Qed.

(** C2, as stated, fails on a dataset with a record without address: the
    missing city is listed as the last option. *)
Lemma absent_city_is_listed :
  cities withNomad = [Some "All"; Some "Gwenborough"; None] /\
  cities withNomad <> citiesSpec withNomad.
Proof. split; [reflexivity | vm_compute; discriminate]. Qed.


Lemma total_pages_witness :
  1 <= page pageThree <= totalPages JS.codeUnitCompare pageThree /\
  nth_error (paginated JS.codeUnitCompare pageThree) 1
  = nth_error (filtered JS.codeUnitCompare pageThree) 9.
Proof.
  assert (Hp : 1 <= page pageThree <= totalPages JS.codeUnitCompare pageThree)
    by (vm_compute; split; discriminate).
  split; [exact Hp|].
  destruct (total_pages_and_visible_rows JS.codeUnitCompare pageThree Hp)
    as [_ [_ Hrows]].
  exact (Hrows 1%nat).
Defined.

Example sorted_by_company :
  map User.id (filtered JS.codeUnitCompare byCompany) = [4; 3; 2; 1] /\
  map (fun u => JS.orEmpty (User.companyName u)) (filtered JS.codeUnitCompare byCompany)
  = [""; "ACME Corp"; "Deckow-Crist"; "Romaguera-Crona"].
Proof. split; reflexivity. Qed.

Lemma sort_witness :
  Consistent JS.codeUnitCompare /\
  sortBy byCompany = "company" /\
  map User.id (filtered JS.codeUnitCompare byCompany) = [4; 3; 2; 1] /\
  StronglySorted
    (fun a b =>
       JS.codeUnitCompare
         match User.company a with
         | Some c => match Company.name c with Some n => n | None => "" end
         | None => ""
         end
         match User.company b with
         | Some c => match Company.name c with Some n => n | None => "" end
         | None => ""
         end <= 0)
    (filtered JS.codeUnitCompare byCompany) /\
  StronglySorted
    (fun a b => JS.codeUnitCompare (User.name a) (User.name b) <= 0)
    (filtered JS.codeUnitCompare threeLoaded).
Proof.
  split; [exact codeUnitCompare_Consistent|].
  split; [reflexivity|]. split; [reflexivity|]. split.
  - destruct (sort_orders_by_the_selected_key JS.codeUnitCompare byCompany)
      as [_ [Hsorted _]].
    destruct (Hsorted codeUnitCompare_Consistent) as [_ Hcompany].
    apply Hcompany. reflexivity.
  - destruct (sort_orders_by_the_selected_key JS.codeUnitCompare threeLoaded)
      as [_ [Hsorted _]].
    destruct (Hsorted codeUnitCompare_Consistent) as [Hname _].
    apply Hname. reflexivity.
Defined.

Lemma failed_fetch_witness :
  fetchFails badStatus = true /\
  error (mounted badStatus) = Some "Failed to fetch users. Please try again." /\
  loading (mounted badStatus) = false /\
  users (mounted badStatus) = [] /\
  cities (mounted badStatus) = [Some "All"].
Proof.
  split; [reflexivity|].
  apply (failed_fetch_leaves_error_and_empty_dataset badStatus). reflexivity.
Defined.



(** C10, as stated, fails at a negative page: the window of page -1 holds
    no index of a list of ten rows, and the slice, whose bounds then count
    from the end, has four rows. *)
Lemma negative_page_shows_rows :
  windowOutside tenUsers (-1) /\
  map User.id (pageRows tenUsers (-1)) = [3; 4; 5; 6] /\
  pageRows tenUsers (-1) <> [].
Proof.
  split; [|split; [reflexivity | discriminate]].
  intros i Hi. unfold PAGE_SIZE in Hi. simpl. lia.
Qed.

Lemma visible_rows_witness :
  0 <= 4 /\ windowOutside tenUsers 4 /\ pageRows tenUsers 4 = [].
Proof.
  assert (Hout : windowOutside tenUsers 4).
  { intros i Hi. unfold PAGE_SIZE in Hi. simpl. lia. }
  split; [lia|]. split; [exact Hout|].
  destruct (visible_rows_at_any_page tenUsers 4) as [_ Hempty].
  apply Hempty; [lia | exact Hout].
Defined.

(** * Further properties of the component *)

(** ** The fetch, whatever the network does *)

Lemma fetchUsers_state (net : Network) (st : State) :
  snd (fetchUsers net st) =
  match net with
  | Answers (mkResponse true (Some data)) => setLoading false (setUsers data st)
  | _ => setLoading false
           (setError (Some "Failed to fetch users. Please try again.") st)
  end.
Proof. destruct net as [|[[|] [data|]]]; reflexivity. Qed.

(** X1: the fetch always ends with loading false and leaves query, city
    filter, sort key and page alone.  Either the response is ok with a
    body that parses: the dataset is that body and the error is as
    before; or the request failed, the status is not ok or the body does
    not parse: the error is the fixed message and the dataset is as
    before, also when a non-ok response carries a body. *)
Theorem fetch_sets_the_dataset_or_the_error (net : Network) (st : State) :
  loading (snd (fetchUsers net st)) = false /\
  query (snd (fetchUsers net st)) = query st /\
  cityFilter (snd (fetchUsers net st)) = cityFilter st /\
  sortBy (snd (fetchUsers net st)) = sortBy st /\
  page (snd (fetchUsers net st)) = page st /\
  ((exists r data,
      net = Answers r /\ ok r = true /\ parsed r = Some data /\
      users (snd (fetchUsers net st)) = data /\
      error (snd (fetchUsers net st)) = error st) \/
   ((net = Unreachable \/
     exists r, net = Answers r /\ (ok r = false \/ parsed r = None)) /\
    error (snd (fetchUsers net st)) = Some "Failed to fetch users. Please try again." /\
    users (snd (fetchUsers net st)) = users st)).
Proof.
  rewrite fetchUsers_state.
  destruct net as [|[[|] [data|]]]; cbn; repeat (split; [reflexivity|]).
  - right. repeat split; auto.
  - left. eexists _, data. repeat split.
  - right. repeat split; eauto.
  - right. repeat split; eauto.
  - right. repeat split; eauto.
Qed.

(** ** Sessions *)

Lemma pageRows_nil (p : Z) : pageRows [] p = [].
Proof. unfold pageRows, JS.slice. rewrite skipn_nil. apply firstn_nil. Qed.

Lemma pageCount_length (rows rows' : list User.t) :
  List.length rows = List.length rows' -> pageCount rows = pageCount rows'.
Proof. intros H. unfold pageCount. now rewrite H. Qed.

Lemma pageCount_zero (rows : list User.t) : pageCount rows = 0 <-> rows = [].
Proof.
  rewrite pageCount_div. split.
  - intros H. destruct rows as [|u rows]; [reflexivity|]. exfalso.
    cbn [List.length] in H. revert H. Z.to_euclidean_division_equations. lia.
  - intros ->. reflexivity.
Qed.

Section SessionProperties.
Variable localeCompare : string -> string -> Z.

Lemma filtered_length (st : State) :
  List.length (filtered localeCompare st)
  = List.length (cityStep st (queryStep st (users st))).
Proof. apply Permutation_length, sort_Permutation. Qed.

Lemma filtered_no_users (st : State) :
  users st = [] -> filtered localeCompare st = [].
Proof.
  intros Hu. unfold filtered, sortStep, cityStep, queryStep. rewrite Hu.
  destruct (JS.truthy (query st)), (negb (cityFilter st =? "All")%string); reflexivity.
Qed.

Lemma totalPages_setSortBy (value : string) (st : State) :
  totalPages localeCompare (setSortBy value st) = totalPages localeCompare st.
Proof.
  unfold totalPages. apply pageCount_length. now rewrite !filtered_length.
Qed.

Lemma totalPages_bounds (st : State) : 0 <= totalPages localeCompare st.
Proof. unfold totalPages. rewrite pageCount_div. apply Z.div_pos; lia. Qed.

Lemma footerShown_loaded (st : State) :
  footerShown st = true -> loading st = false /\ errorShown st = false.
Proof.
  unfold footerShown, errorShown. intros H.
  apply andb_true_iff in H as [Hl He].
  apply negb_true_iff in Hl, He. now split.
Qed.

Lemma Invariant_initialState : Invariant localeCompare initialState.
Proof. split; cbn; auto. left. lia. Qed.

Lemma step_Invariant (st : State) (e : Event) :
  Invariant localeCompare st -> Invariant localeCompare (step localeCompare st e).
Proof.
  intros Hinv. pose proof Hinv as [Hpage Hload Herr].
  pose proof (totalPages_bounds st) as Htp.
  destruct e as [net|value|value|value| | |]; cbn [step].
  - destruct (loading st) eqn:Hl; [|exact Hinv].
    destruct (Hload eq_refl) as [Hp [Hu He]].
    rewrite fetchUsers_state.
    destruct net as [|[[|] [data|]]]; split; cbn; rewrite ?Hp, ?Hu, ?He;
      auto; try discriminate; left;
      match goal with |- context [totalPages ?c ?s] =>
        pose proof (totalPages_bounds s) end; lia.
  - split; cbn; [left| |exact Herr].
    + match goal with |- context [totalPages ?c ?s] =>
        pose proof (totalPages_bounds s) end. lia.
    + intros Hl. destruct (Hload Hl) as [_ [Hu He]]. auto.
  - split; cbn; [left| |exact Herr].
    + match goal with |- context [totalPages ?c ?s] =>
        pose proof (totalPages_bounds s) end. lia.
    + intros Hl. destruct (Hload Hl) as [_ [Hu He]]. auto.
  - unfold handleSortChange. split; [|exact Hload|exact Herr].
    rewrite totalPages_setSortBy. exact Hpage.
  - unfold clickPrevious.
    destruct (footerShown st && negb (previousDisabled st)) eqn:Hc; [|exact Hinv].
    apply andb_true_iff in Hc as [Hf _]. apply footerShown_loaded in Hf as [Hl _].
    unfold onPrevious, updatePage, JS.Math_max. split.
    + rewrite totalPages_setPage. cbn [page setPage]. lia.
    + cbn. congruence.
    + exact Herr.
  - unfold clickNext.
    destruct (footerShown st && negb (nextDisabled localeCompare st)) eqn:Hc;
      [|exact Hinv].
    apply andb_true_iff in Hc as [Hf Hd]. apply footerShown_loaded in Hf as [Hl _].
    apply negb_true_iff, Z.eqb_neq in Hd.
    unfold onNext, updatePage, JS.Math_min. split.
    + rewrite totalPages_setPage. cbn [page setPage]. lia.
    + cbn. congruence.
    + exact Herr.
  - unfold clickRetry. destruct (errorShown st); [|exact Hinv].
    apply Invariant_initialState.
Qed.

Lemma run_Invariant (events : list Event) :
  Invariant localeCompare (run localeCompare events).
Proof.
  unfold run. generalize Invariant_initialState.
  generalize initialState as st. induction events as [|e events IH]; intros st Hst.
  - exact Hst.
  - cbn [fold_left]. apply IH, step_Invariant, Hst.
Qed.

End SessionProperties.

Section SessionTheorems.
Variable localeCompare : string -> string -> Z.

(** X2: in every state of a session (inputs, selections, clicks, the end
    of the fetch and reloads in any order) the page is in
    [1, totalPages] when there is at least one page, and 0 or 1 when
    there is none; it is never negative. *)
Theorem page_range_in_every_session (events : list Event) :
  (1 <= totalPages localeCompare (run localeCompare events) ->
   1 <= page (run localeCompare events)
     <= totalPages localeCompare (run localeCompare events)) /\
  (totalPages localeCompare (run localeCompare events) = 0 ->
   page (run localeCompare events) = 0 \/ page (run localeCompare events) = 1) /\
  0 <= page (run localeCompare events).
Proof.
  destruct (run_Invariant localeCompare events) as [Hpage _ _].
  pose proof (totalPages_bounds localeCompare (run localeCompare events)).
  repeat split; intros; lia.
Qed.

(** X3: in every state of a session exactly one of the loading message,
    the error block and the pagination footer is rendered. *)
Theorem one_of_loading_error_footer (events : list Event) :
  let st := run localeCompare events in
  (loadingShown st = true /\ errorShown st = false /\ footerShown st = false) \/
  (loadingShown st = false /\ errorShown st = true /\ footerShown st = false) \/
  (loadingShown st = false /\ errorShown st = false /\ footerShown st = true).
Proof.
  cbv zeta. destruct (run_Invariant localeCompare events) as [_ Hload Herr].
  unfold loadingShown, errorShown, footerShown.
  destruct (loading (run localeCompare events)).
  - destruct (Hload eq_refl) as [_ [_ ->]]. auto.
  - destruct Herr as [->|[-> _]]; cbn; auto.
Qed.

(** X4: in every state of a session the message "No users found." is
    rendered exactly when the footer is (the fetch is over, without
    error) and no record passes the filters. *)
Theorem empty_message_iff_nothing_passes (events : list Event) :
  emptyShown localeCompare (run localeCompare events) = true <->
  footerShown (run localeCompare events) = true /\
  filtered localeCompare (run localeCompare events) = [].
Proof.
  destruct (run_Invariant localeCompare events) as [Hpage _ _].
  set (st := run localeCompare events) in *.
  unfold emptyShown. fold (errorShown st).
  change (negb (loading st) && negb (errorShown st)) with (footerShown st).
  rewrite andb_true_iff, Nat.eqb_eq, length_zero_iff_nil.
  assert (Hrows : paginated localeCompare st = [] <-> filtered localeCompare st = []).
  { unfold paginated. split.
    - intros Hempty. apply pageCount_zero.
      destruct Hpage as [Hin|[_ Hzero]]; [|exact Hzero].
      pose proof (totalPages_bounds localeCompare st) as Htp.
      destruct (Z.eq_dec (totalPages localeCompare st) 0) as [Hz|Hnz]; [exact Hz|].
      exfalso. rewrite pageRows_firstn_skipn in Hempty by lia.
      apply (f_equal (@List.length _)) in Hempty.
      rewrite length_firstn, length_skipn in Hempty.
      pose proof (pageCount_bounds (filtered localeCompare st)) as Hb.
      cbv zeta in Hb. unfold totalPages, PAGE_SIZE in *. cbn [List.length] in Hempty.
      lia.
    - intros ->. apply pageRows_nil. }
  now rewrite Hrows.
Qed.

(** X5: while the fetch is pending, and after it failed, no card is
    rendered: the dataset, the filtered list and the visible rows are
    empty, whatever was typed or selected. *)
Theorem no_cards_while_loading_or_failed (events : list Event) :
  loadingShown (run localeCompare events) = true \/
  errorShown (run localeCompare events) = true ->
  users (run localeCompare events) = [] /\
  filtered localeCompare (run localeCompare events) = [] /\
  paginated localeCompare (run localeCompare events) = [].
Proof.
  destruct (run_Invariant localeCompare events) as [_ Hload Herr].
  set (st := run localeCompare events) in *. intros Hshown.
  assert (Hu : users st = []).
  { destruct Hshown as [Hl|He].
    - now destruct (Hload Hl) as [_ [Hu _]].
    - destruct Herr as [Hnone|[_ Hu]]; [|exact Hu].
      unfold errorShown in He. rewrite Hnone in He. discriminate. }
  split; [exact Hu|]. unfold paginated.
  rewrite (filtered_no_users localeCompare st Hu). split; [reflexivity|apply pageRows_nil].
Qed.

End SessionTheorems.

(** ** The filters *)

Lemma queryStep_In (st : State) (rows : list User.t) (u : User.t) :
  In u (queryStep st rows) <->
  In u rows /\
  (query st = "" \/
   Substring (JS.toLowerCase (query st)) (JS.toLowerCase (searchText u))).
Proof.
  unfold queryStep. destruct (query st) as [|c q] eqn:Hq; cbn [JS.truthy].
  - tauto.
  - rewrite filter_In, includes_Substring. split; [tauto|].
    intros [Hin [Hempty|Hsub]]; [discriminate | tauto].
Qed.

Lemma cityStep_In (st : State) (rows : list User.t) (u : User.t) :
  In u (cityStep st rows) <->
  In u rows /\
  (cityFilter st = "All" \/ User.addressCity u = Some (cityFilter st)).
Proof.
  unfold cityStep, cityIs.
  destruct (String.eqb_spec (cityFilter st) "All") as [Hall|Hcity]; cbn [negb].
  - tauto.
  - rewrite filter_In, sameValueZero_eq. tauto.
Qed.

Lemma Substring_trans (a b c : string) :
  Substring a b -> Substring b c -> Substring a c.
Proof.
  intros [p [q ->]] [p' [q' ->]]. exists (p' ++ p)%string, (q ++ q')%string.
  now rewrite !append_assoc.
Qed.

Lemma Substring_empty (a : string) : Substring a "" -> a = "".
Proof.
  intros [p [q H]]. destruct p; [|discriminate]. destruct a; [reflexivity|discriminate].
Qed.

Lemma toLowerCase_empty (q : string) : JS.toLowerCase q = "" -> q = "".
Proof. destruct q; [reflexivity|discriminate]. Qed.

Section FilterTheorems.
Variable localeCompare : string -> string -> Z.


(** X7: without a query and with the city filter "All" the filtered list
    is the dataset reordered: every record, as often as it occurs; with
    any query and filter it is never longer than the dataset. *)
Theorem no_filter_keeps_every_record (st : State) :
  (query st = "" -> cityFilter st = "All" ->
   Permutation (filtered localeCompare st) (users st)) /\
  (List.length (filtered localeCompare st) <= List.length (users st))%nat.
Proof.
  split.
  - intros Hq Hc. unfold filtered, sortStep. rewrite sort_Permutation.
    unfold cityStep, queryStep. now rewrite Hq, Hc.
  - rewrite filtered_length. unfold cityStep, queryStep.
    destruct (negb (cityFilter st =? "All")%string), (JS.truthy (query st));
      repeat (etransitivity; [apply filter_length_le|]); reflexivity.
Qed.

(** X8: a change of the sort key reorders the filtered list and nothing
    more: the same records, the same count, the same page count. *)
Theorem sort_change_keeps_records_and_pages (st : State) (value : string) :
  Permutation (filtered localeCompare (handleSortChange value st))
              (filtered localeCompare st) /\
  totalPages localeCompare (handleSortChange value st) = totalPages localeCompare st.
Proof.
  split; [|apply totalPages_setSortBy].
  unfold filtered, sortStep. rewrite !sort_Permutation. reflexivity.
Qed.

(** X9: a query that contains the previous one, case ignored, narrows
    the result: every record kept for the longer query was kept for the
    shorter one. *)
Theorem longer_query_narrows (st : State) (q q' : string) (u : User.t) :
  Substring (JS.toLowerCase q) (JS.toLowerCase q') ->
  In u (filtered localeCompare (handleQueryChange q' st)) ->
  In u (filtered localeCompare (handleQueryChange q st)).
Proof.
  intros Hsub Hin. unfold filtered, sortStep in *.
  apply (Permutation_in _ (sort_Permutation _ _)) in Hin.
  apply (Permutation_in _ (Permutation_sym (sort_Permutation _ _))).
  apply cityStep_In in Hin as [Hin Hcity]. apply queryStep_In in Hin as [Hin Hq].
  apply cityStep_In. split; [|exact Hcity]. apply queryStep_In.
  split; [exact Hin|]. cbn [query handleQueryChange setPage setQuery] in *.
  destruct Hq as [->|Hq].
  - left. apply toLowerCase_empty, Substring_empty. exact Hsub.
  - right. eapply Substring_trans; eassumption.
Qed.

(** X10: every option that is a city string other than "All" selects at
    least one record when there is no query.  (The option listed for a
    record without city is [undefined], not a string, and is not covered
    here.) *)
Theorem listed_city_selects_a_record (st : State) (c : string) :
  In (Some c) (cities st) -> c <> "All" -> query st = "" ->
  filtered localeCompare (handleCityChange c st) <> [].
Proof.
  intros Hin Hc Hq. unfold cities in Hin. destruct Hin as [Heq|Hin]; [congruence|].
  apply (Permutation_in _ (sort_Permutation _ _)), newSet_In, in_map_iff in Hin.
  destruct Hin as [u [Hcity Hu]].
  assert (Hf : In u (filtered localeCompare (handleCityChange c st))).
  { unfold filtered, sortStep.
    apply (Permutation_in _ (Permutation_sym (sort_Permutation _ _))).
    apply cityStep_In. split; [|right; exact Hcity].
    apply queryStep_In. split; [exact Hu | left; exact Hq]. }
  intros Hnil. rewrite Hnil in Hf. exact Hf.
Qed.

End FilterTheorems.

(** X11: the city options, which are also the keys of the option
    elements, are pairwise distinct exactly when no record has the city
    "All". *)
Theorem options_distinct_unless_a_city_is_All (st : State) :
  NoDup (cities st) <->
  ~ exists u, In u (users st) /\ User.addressCity u = Some "All".
Proof.
  unfold cities, JS.sortDefault. rewrite NoDup_cons_iff.
  set (found := JS.newSet (map User.addressCity (users st))).
  pose proof (sort_Permutation JS.defaultCompare found) as Hperm.
  assert (Hin : In (Some "All") (JS.sort JS.defaultCompare found) <->
                exists u, In u (users st) /\ User.addressCity u = Some "All").
  { split.
    - intros H. apply (Permutation_in _ Hperm), newSet_In, in_map_iff in H.
      destruct H as [u [Hc Hu]]. eauto.
    - intros [u [Hu Hc]]. apply (Permutation_in _ (Permutation_sym Hperm)).
      apply newSet_In, in_map_iff. eauto. }
  rewrite Hin. split; [tauto|]. intros Hno. split; [exact Hno|].
  eapply Permutation_NoDup; [symmetry; exact Hperm | apply newSet_NoDup].
Qed.

(** ** Pages and the two buttons *)

Section PageTheorems.
Variable localeCompare : string -> string -> Z.

(** X12: on a page in [1, totalPages] there is at least one row; every
    page before the last has four rows, and the last has what is left. *)
Theorem pages_are_full_but_the_last (st : State) :
  1 <= page st <= totalPages localeCompare st ->
  (1 <= List.length (paginated localeCompare st) <= 4)%nat /\
  (page st < totalPages localeCompare st ->
   List.length (paginated localeCompare st) = 4%nat) /\
  (page st = totalPages localeCompare st ->
   Z.of_nat (List.length (paginated localeCompare st))
   = Z.of_nat (List.length (filtered localeCompare st))
     - PAGE_SIZE * (totalPages localeCompare st - 1)).
Proof.
  intros Hp. unfold paginated.
  rewrite pageRows_firstn_skipn, length_firstn, length_skipn by lia.
  pose proof (pageCount_bounds (filtered localeCompare st)) as Hb.
  cbv zeta in Hb. unfold totalPages, PAGE_SIZE in *.
  repeat split; intros; lia.
Qed.

(** X13: at every integer page, in range or not, the visible rows are
    one run of consecutive records of the filtered list, in its order. *)
Theorem visible_rows_are_a_run_of_filtered (st : State) :
  exists before after,
    filtered localeCompare st = before ++ paginated localeCompare st ++ after.
Proof.
  unfold paginated, pageRows, JS.slice.
  set (rows := filtered localeCompare st).
  set (k := Z.to_nat (JS.relativeIndex _ ((page st - 1) * PAGE_SIZE))).
  set (n := Z.to_nat _).
  exists (firstn k rows), (skipn n (skipn k rows)).
  now rewrite !firstn_skipn.
Qed.

(** X14: with the footer rendered, Next from a page before the last goes
    one page on and Previous brings the state back; Previous from a page
    after the first goes one page back and Next brings the state back. *)
Theorem next_and_previous_undo_each_other (st : State) :
  footerShown st = true ->
  (1 <= page st < totalPages localeCompare st ->
   page (clickNext localeCompare st) = page st + 1 /\
   clickPrevious (clickNext localeCompare st) = st) /\
  (1 < page st <= totalPages localeCompare st ->
   page (clickPrevious st) = page st - 1 /\
   clickNext localeCompare (clickPrevious st) = st).
Proof.
  intros Hf. split; intros Hp.
  - assert (Hn : clickNext localeCompare st = setPage (page st + 1) st).
    { unfold clickNext, nextDisabled, onNext, updatePage, JS.Math_min. rewrite Hf.
      destruct (Z.eqb_spec (page st) (totalPages localeCompare st)); [lia|].
      cbn [andb negb]. f_equal. lia. }
    rewrite Hn. split; [reflexivity|].
    unfold clickPrevious, previousDisabled, onPrevious, updatePage, JS.Math_max.
    change (footerShown (setPage (page st + 1) st)) with (footerShown st).
    rewrite Hf. cbn [page setPage].
    destruct (Z.eqb_spec (page st + 1) 1); [lia|]. cbn [andb negb].
    destruct st; unfold setPage; cbn in *. f_equal. lia.
  - assert (Hb : clickPrevious st = setPage (page st - 1) st).
    { unfold clickPrevious, previousDisabled, onPrevious, updatePage, JS.Math_max.
      rewrite Hf. destruct (Z.eqb_spec (page st) 1); [lia|].
      cbn [andb negb]. f_equal. lia. }
    rewrite Hb. split; [reflexivity|].
    unfold clickNext, nextDisabled, onNext, updatePage, JS.Math_min.
    change (footerShown (setPage (page st - 1) st)) with (footerShown st).
    rewrite Hf, totalPages_setPage. cbn [page setPage].
    destruct (Z.eqb_spec (page st - 1) (totalPages localeCompare st)); [lia|].
    cbn [andb negb].
    destruct st; unfold setPage; cbn in *. f_equal. lia.
Qed.

End PageTheorems.

(** ** Worked inputs for the further properties *)

Example browsing_ends_on_page_three :
  page (run JS.codeUnitCompare browsing) = 3 /\
  sortBy (run JS.codeUnitCompare browsing) = "company" /\
  map User.id (paginated JS.codeUnitCompare (run JS.codeUnitCompare browsing)) = [9; 10].
Proof. repeat split; reflexivity. Qed.

Lemma page_range_witness :
  1 <= totalPages JS.codeUnitCompare (run JS.codeUnitCompare browsing) /\
  1 <= page (run JS.codeUnitCompare browsing)
    <= totalPages JS.codeUnitCompare (run JS.codeUnitCompare browsing).
Proof.
  assert (H : 1 <= totalPages JS.codeUnitCompare (run JS.codeUnitCompare browsing))
    by (vm_compute; discriminate).
  split; [exact H|].
  exact (proj1 (page_range_in_every_session JS.codeUnitCompare browsing) H).
Defined.

Lemma no_cards_witness :
  loadingShown (run JS.codeUnitCompare [QueryInput "u"; CitySelect "Springfield"]) = true /\
  paginated JS.codeUnitCompare
    (run JS.codeUnitCompare [QueryInput "u"; CitySelect "Springfield"]) = [].
Proof.
  split; [reflexivity|].
  apply (no_cards_while_loading_or_failed JS.codeUnitCompare
           [QueryInput "u"; CitySelect "Springfield"]).
  left. reflexivity.
Defined.

Lemma no_filter_witness :
  query threeLoaded = "" /\ cityFilter threeLoaded = "All" /\
  Permutation (filtered JS.codeUnitCompare threeLoaded) (users threeLoaded).
Proof.
  split; [reflexivity|]. split; [reflexivity|].
  apply (proj1 (no_filter_keeps_every_record JS.codeUnitCompare threeLoaded));
    reflexivity.
Defined.

Lemma longer_query_witness :
  Substring (JS.toLowerCase "ac") (JS.toLowerCase "ACME") /\
  In jo (filtered JS.codeUnitCompare (handleQueryChange "ACME" threeLoaded)) /\
  In jo (filtered JS.codeUnitCompare (handleQueryChange "ac" threeLoaded)).
Proof.
  assert (Hsub : Substring (JS.toLowerCase "ac") (JS.toLowerCase "ACME"))
    by (exists "", "me"; reflexivity).
  assert (Hin : In jo (filtered JS.codeUnitCompare (handleQueryChange "ACME" threeLoaded)))
    by (left; reflexivity).
  split; [exact Hsub|]. split; [exact Hin|].
  exact (longer_query_narrows JS.codeUnitCompare threeLoaded "ac" "ACME" jo Hsub Hin).
Defined.

Lemma listed_city_witness :
  In (Some "Springfield") (cities threeLoaded) /\
  filtered JS.codeUnitCompare (handleCityChange "Springfield" threeLoaded) <> [].
Proof.
  assert (Hin : In (Some "Springfield") (cities threeLoaded))
    by (right; right; left; reflexivity).
  split; [exact Hin|].
  apply (listed_city_selects_a_record JS.codeUnitCompare threeLoaded "Springfield" Hin);
    [discriminate | reflexivity].
Defined.

Lemma last_page_witness :
  1 <= page pageThree <= totalPages JS.codeUnitCompare pageThree /\
  (1 <= List.length (paginated JS.codeUnitCompare pageThree) <= 4)%nat.
Proof.
  assert (Hp : 1 <= page pageThree <= totalPages JS.codeUnitCompare pageThree)
    by (vm_compute; split; discriminate).
  split; [exact Hp|].
  exact (proj1 (pages_are_full_but_the_last JS.codeUnitCompare pageThree Hp)).
Defined.

Lemma next_previous_witness :
  footerShown (setPage 2 (loaded tenUsers)) = true /\
  1 <= 2 < totalPages JS.codeUnitCompare (setPage 2 (loaded tenUsers)) /\
  clickPrevious (clickNext JS.codeUnitCompare (setPage 2 (loaded tenUsers)))
  = setPage 2 (loaded tenUsers).
Proof.
  assert (Hp : 1 <= 2 < totalPages JS.codeUnitCompare (setPage 2 (loaded tenUsers)))
    by (vm_compute; split; [discriminate | reflexivity]).
  split; [reflexivity|]. split; [exact Hp|].
  destruct (next_and_previous_undo_each_other JS.codeUnitCompare
              (setPage 2 (loaded tenUsers)) eq_refl) as [Hnext _].
  exact (proj2 (Hnext Hp)).
Defined.

(** ** Ties of the sort, and what the handlers leave alone *)

Section OrderTheorems.
Variable localeCompare : string -> string -> Z.

Lemma comparator_Consistent (key : string) :
  Consistent localeCompare -> Consistent (comparator localeCompare key).
Proof.
  intros Hc. unfold comparator. destruct (key =? "name")%string.
  - apply (Consistent_on_key localeCompare User.name Hc).
  - destruct (key =? "company")%string.
    + apply (Consistent_on_key localeCompare
               (fun u => JS.orEmpty (User.companyName u)) Hc).
    + split; intros; lia.
Qed.

(** X16: under a consistent [localeCompare] the sort is stable for every
    key: the records that the comparator of the sort key ranks with a
    record [z] come in the filtered list in the order they have in the
    dataset. *)
Theorem ties_keep_the_dataset_order (st : State) (z : User.t) :
  Consistent localeCompare ->
  filter (fun u => (comparator localeCompare (sortBy st) z u <=? 0)
                   && (comparator localeCompare (sortBy st) u z <=? 0))
         (filtered localeCompare st)
  = filter (fun u => (comparator localeCompare (sortBy st) z u <=? 0)
                     && (comparator localeCompare (sortBy st) u z <=? 0))
           (cityStep st (queryStep st (users st))).
Proof.
  intros Hc. unfold filtered, sortStep.
  apply sort_stable, comparator_Consistent, Hc.
Qed.

(** X17: once the fetch is over, no input, selection or page click
    changes the dataset, the loading flag or the error; only Retry
    does. *)
Theorem events_after_the_fetch_keep_the_dataset (st : State) (e : Event) :
  loading st = false -> e <> RetryClick ->
  users (step localeCompare st e) = users st /\
  loading (step localeCompare st e) = false /\
  error (step localeCompare st e) = error st.
Proof.
  intros Hl He. destruct e as [net|value|value|value| | |]; cbn [step].
  - rewrite Hl. auto.
  - auto.
  - auto.
  - auto.
  - unfold clickPrevious. destruct (footerShown st && negb (previousDisabled st)); auto.
  - unfold clickNext.
    destruct (footerShown st && negb (nextDisabled localeCompare st)); auto.
  - congruence.
Qed.

End OrderTheorems.

Lemma clicks_witness :
  1 <= page pageThree <= totalPages JS.codeUnitCompare pageThree /\
  1 <= page (clickPrevious pageThree) <= totalPages JS.codeUnitCompare pageThree /\
  1 <= page (clickNext JS.codeUnitCompare pageThree)
    <= totalPages JS.codeUnitCompare pageThree.
Proof.
  assert (Hp : 1 <= page pageThree <= totalPages JS.codeUnitCompare pageThree)
    by (vm_compute; split; discriminate).
  split; [exact Hp|].
  exact (clicks_keep_range JS.codeUnitCompare pageThree Hp).
Defined.

Lemma ties_witness :
  Consistent JS.codeUnitCompare /\
  map User.id
    (filter (fun u =>
               (comparator JS.codeUnitCompare (sortBy pageThree) (numbered 1) u <=? 0)
               && (comparator JS.codeUnitCompare (sortBy pageThree) u (numbered 1) <=? 0))
            (filtered JS.codeUnitCompare pageThree))
  = [1; 2; 3; 4; 5; 6; 7; 8; 9; 10].
Proof.
  split; [exact codeUnitCompare_Consistent|].
  rewrite (ties_keep_the_dataset_order JS.codeUnitCompare pageThree (numbered 1)
             codeUnitCompare_Consistent).
  reflexivity.
Defined.

Lemma events_after_fetch_witness :
  loading pageThree = false /\ QueryInput "u" <> RetryClick /\
  users (step JS.codeUnitCompare pageThree (QueryInput "u")) = users pageThree.
Proof.
  split; [reflexivity|]. split; [discriminate|].
  apply (events_after_the_fetch_keep_the_dataset JS.codeUnitCompare pageThree
           (QueryInput "u")); [reflexivity | discriminate].
Defined.
